(** * OpenBLT LibOpenBLT, port/windows/critutil.c

    Shallow embedding of the critical section utility module and the
    properties of its lifecycle (Init / Terminate) and of its nesting
    discipline (Enter / Exit).

    The module keeps three file-scope variables: a flag, a [uint32_t]
    nesting counter and a Win32 [CRITICAL_SECTION] object.  The four
    exported functions are embedded as programs of a small monad that
    threads these variables, records every call made to the Win32
    primitive, and can stop on a failed [assert]. *)

From Stdlib Require Import ZArith List Bool Lia.
Import ListNotations.
Open Scope Z_scope.

(** ** The Win32 primitive, as far as this module observes it *)

Module Win32.

(** A critical section object is either raw storage that was never handed
    to [InitializeCriticalSection] (or was deleted), or a constructed
    object with the recursion count of its owner.  A Win32 critical
    section is recursive: the owning thread may enter it again, and owns
    it until it has left it as many times as it entered.  A recursion
    count of 0 means that nobody holds the object. *)
Inductive CRITICAL_SECTION : Type :=
| NotConstructed : CRITICAL_SECTION
| Constructed (recursion : nat) : CRITICAL_SECTION.

(** The calls the module makes to the primitive. *)
Inductive os_call : Type :=
| OsInitialize   (* InitializeCriticalSection *)
| OsDelete       (* DeleteCriticalSection *)
| OsEnter        (* EnterCriticalSection *)
| OsLeave.       (* LeaveCriticalSection *)

Definition os_call_eqb (a b : os_call) : bool :=
  match a, b with
  | OsInitialize, OsInitialize | OsDelete, OsDelete
  | OsEnter, OsEnter | OsLeave, OsLeave => true
  | _, _ => false
  end.

(** Effect of each call on the object, for one thread.  Entering or
    leaving an object that is not constructed, and leaving an object that
    is not owned, are undefined in Win32; the model leaves the object as
    it is there. *)
Definition initialize (_ : CRITICAL_SECTION) : CRITICAL_SECTION :=
  Constructed 0.

Definition delete (_ : CRITICAL_SECTION) : CRITICAL_SECTION :=
  NotConstructed.

Definition enter (cs : CRITICAL_SECTION) : CRITICAL_SECTION :=
  match cs with
  | Constructed r => Constructed (S r)
  | NotConstructed => NotConstructed
  end.

Definition leave (cs : CRITICAL_SECTION) : CRITICAL_SECTION :=
  match cs with
  | Constructed r => Constructed (Nat.pred r)
  | NotConstructed => NotConstructed
  end.

(** Number of acquisitions that are outstanding on the object. *)
Definition recursion_count (cs : CRITICAL_SECTION) : nat :=
  match cs with
  | Constructed r => r
  | NotConstructed => 0%nat
  end.

Definition held (cs : CRITICAL_SECTION) : bool :=
  negb (Nat.eqb (recursion_count cs) 0).

(** When a call is within the Win32 contract for a single thread: an
    object is initialized once, deleted only when constructed and owned by
    nobody, entered only when constructed, and left only when owned. *)
Definition defined (c : os_call) (cs : CRITICAL_SECTION) : bool :=
  match c, cs with
  | OsInitialize, NotConstructed => true
  | OsInitialize, Constructed _ => false
  | OsDelete, Constructed 0 => true
  | OsDelete, Constructed (S _) => false
  | OsEnter, Constructed _ => true
  | OsLeave, Constructed (S _) => true
  | _, _ => false
  end.

Definition apply_call (c : os_call) : CRITICAL_SECTION -> CRITICAL_SECTION :=
  match c with
  | OsInitialize => initialize
  | OsDelete => delete
  | OsEnter => enter
  | OsLeave => leave
  end.

(** A sequence of calls, made one after the other on the object, stays
    within the contract. *)
Fixpoint within_contract (tr : list os_call) (cs : CRITICAL_SECTION) : bool :=
  match tr with
  | [] => true
  | c :: tr' => defined c cs && within_contract tr' (apply_call c cs)
  end.

End Win32.
Import Win32.

(** ** [uint32_t] arithmetic *)

Definition UINT32_MODULUS : Z := 4294967296.   (* 2^32 *)
Definition UINT32_MAX : Z := 4294967295.

Definition wrap32 (x : Z) : Z := x mod UINT32_MODULUS.
Arguments wrap32 : simpl never.

Definition uint32_range (x : Z) : Prop := 0 <= x < UINT32_MODULUS.

(** ** Module state: the three file-scope variables *)

Record state : Type := mkState {
  criticalSectionInitialized : bool;
  criticalSectionNesting : Z;              (* uint32_t *)
  criticalSection : CRITICAL_SECTION
}.

(** Static storage: the flag has the initialiser [false], the counter has
    none and is zero, the object is raw storage. *)
Definition initial_state : state := mkState false 0 NotConstructed.

(** The state right after the first effective [UtilCriticalSectionInit]. *)
Definition ready_state : state := mkState true 0 (Constructed 0).

(** ** A monad for the module's functions

    A program runs from a state and either returns, with the new state and
    the calls it made to the primitive, or stops on a failed assertion,
    with the state and the calls made up to that point. *)

Inductive outcome (A : Type) : Type :=
| Done (a : A) (s : state) (tr : list os_call)
| AssertFail (s : state) (tr : list os_call).
Arguments Done {A} a s tr.
Arguments AssertFail {A} s tr.

Definition M (A : Type) : Type := state -> outcome A.

Definition ret {A} (a : A) : M A := fun s => Done a s [].

Definition bind {A B} (m : M A) (f : A -> M B) : M B :=
  fun s =>
    match m s with
    | Done a s1 tr1 =>
        match f a s1 with
        | Done b s2 tr2 => Done b s2 (tr1 ++ tr2)
        | AssertFail s2 tr2 => AssertFail s2 (tr1 ++ tr2)
        end
    | AssertFail s1 tr1 => AssertFail s1 tr1
    end.

Notation "x <- m ;; k" := (bind m (fun x => k))
  (at level 61, m at next level, right associativity).
Notation "m ;; k" := (bind m (fun _ => k))
  (at level 61, right associativity).

Definition out_state {A} (o : outcome A) : state :=
  match o with
  | Done _ s _ => s
  | AssertFail s _ => s
  end.

Definition out_trace {A} (o : outcome A) : list os_call :=
  match o with
  | Done _ _ tr => tr
  | AssertFail _ tr => tr
  end.

(** Reads and writes of the file-scope variables. *)
Definition get_Initialized : M bool :=
  fun s => Done (criticalSectionInitialized s) s [].

Definition set_Initialized (b : bool) : M unit :=
  fun s => Done tt (mkState b (criticalSectionNesting s) (criticalSection s)) [].

Definition get_Nesting : M Z :=
  fun s => Done (criticalSectionNesting s) s [].

Definition set_Nesting (n : Z) : M unit :=
  fun s => Done tt (mkState (criticalSectionInitialized s) n (criticalSection s)) [].

(** A call to the primitive on [&criticalSection]: the object changes and
    the call is recorded. *)
Definition os (c : os_call) (f : CRITICAL_SECTION -> CRITICAL_SECTION) : M unit :=
  fun s =>
    Done tt
      (mkState (criticalSectionInitialized s) (criticalSectionNesting s)
         (f (criticalSection s)))
      [c].

Definition InitializeCriticalSection : M unit := os OsInitialize Win32.initialize.
Definition DeleteCriticalSection : M unit := os OsDelete Win32.delete.
Definition EnterCriticalSection : M unit := os OsEnter Win32.enter.
Definition LeaveCriticalSection : M unit := os OsLeave Win32.leave.

(** [if (c) { body }] *)
Definition when (c : bool) (body : M unit) : M unit :=
  if c then body else ret tt.

(** The entry points of the module, as data. *)
Inductive api : Type := Initialize | Terminate | Enter | Exit.

(** ** The four functions of critutil.c *)

Section Build.

(** [NDEBUG = true] is a release build, where [assert] expands to nothing;
    [NDEBUG = false] is a debug build, where a failed [assert] stops the
    program. *)
Variable NDEBUG : bool.

Definition assert (c : bool) : M unit :=
  fun s => if NDEBUG || c then Done tt s [] else AssertFail s [].

Definition UtilCriticalSectionInit : M unit :=
  initialized <- get_Initialized ;;
  when (negb initialized)
    (InitializeCriticalSection ;;
     set_Nesting 0 ;;
     set_Initialized true).

Definition UtilCriticalSectionTerminate : M unit :=
  initialized <- get_Initialized ;;
  when initialized
    (set_Initialized false ;;
     set_Nesting 0 ;;
     DeleteCriticalSection).

Definition UtilCriticalSectionEnter : M unit :=
  initialized <- get_Initialized ;;
  assert initialized ;;
  initialized <- get_Initialized ;;
  when initialized
    (nesting <- get_Nesting ;;
     when (nesting =? 0) EnterCriticalSection ;;
     nesting <- get_Nesting ;;
     set_Nesting (wrap32 (nesting + 1))).

Definition UtilCriticalSectionExit : M unit :=
  initialized <- get_Initialized ;;
  assert initialized ;;
  initialized <- get_Initialized ;;
  when initialized
    (nesting <- get_Nesting ;;
     assert (0 <? nesting) ;;
     nesting <- get_Nesting ;;
     when (0 <? nesting)
       (nesting <- get_Nesting ;;
        set_Nesting (wrap32 (nesting - 1)) ;;
        nesting <- get_Nesting ;;
        when (nesting =? 0) LeaveCriticalSection)).

(** *** Sequences of calls made by one thread *)

Definition call (c : api) : M unit :=
  match c with
  | Initialize => UtilCriticalSectionInit
  | Terminate => UtilCriticalSectionTerminate
  | Enter => UtilCriticalSectionEnter
  | Exit => UtilCriticalSectionExit
  end.

Fixpoint exec (l : list api) : M unit :=
  match l with
  | [] => ret tt
  | c :: l' => call c ;; exec l'
  end.

(** One call that returns takes the module from [s] to [s']. *)
Definition step (s : state) (c : api) (s' : state) : Prop :=
  exists tr, call c s = Done tt s' tr.

(** [reachable h s]: the module is in state [s] after the calls of [h],
    in the order they were made, from the initial state. *)
Inductive reachable : list api -> state -> Prop :=
| reachable_initial : reachable [] initial_state
| reachable_step h s c s' :
    reachable h s -> step s c s' -> reachable (h ++ [c]) s'.

End Build.

(** Number of calls [c] made to the primitive in a trace. *)
Definition count_os (c : os_call) (tr : list os_call) : nat :=
  length (filter (os_call_eqb c) tr).

(** * Statements of the specification

    The properties below are stated over the embedding; the theorems that
    settle them follow. *)

(** ** Enter *)

(** What the specification says of one [Enter] call made in state [s]: the
    primitive is acquired exactly when the counter is 0, and the counter
    has grown by one. *)
Definition Enter_increments (NDEBUG : bool) (s : state) : Prop :=
  exists s' tr,
    UtilCriticalSectionEnter NDEBUG s = Done tt s' tr /\
    (In OsEnter tr <-> criticalSectionNesting s = 0) /\
    criticalSectionNesting s' = criticalSectionNesting s + 1.

(** The same with the counter's arithmetic as the code has it. *)
Definition Enter_increments_uint32 (NDEBUG : bool) (s : state) : Prop :=
  exists s' tr,
    UtilCriticalSectionEnter NDEBUG s = Done tt s' tr /\
    (In OsEnter tr <-> criticalSectionNesting s = 0) /\
    (criticalSectionNesting s = 0 ->
       tr = [OsEnter] /\
       criticalSection s' = Win32.enter (criticalSection s)) /\
    (criticalSectionNesting s <> 0 ->
       tr = [] /\ criticalSection s' = criticalSection s) /\
    criticalSectionInitialized s' = true /\
    criticalSectionNesting s' = wrap32 (criticalSectionNesting s + 1) /\
    (criticalSectionNesting s < UINT32_MAX ->
       criticalSectionNesting s' = criticalSectionNesting s + 1) /\
    (criticalSectionNesting s = UINT32_MAX -> criticalSectionNesting s' = 0).

(** ** Nested regions *)

(** [N] [Enter] calls followed by [N] [Exit] calls, from the state right
    after [Init]: over the whole run the primitive is acquired once and
    released once, the acquisition is made by the first [Enter] and the
    release by the last [Exit], and the run ends with the counter at 0 and
    the primitive not held. *)
Definition balanced_region (NDEBUG : bool) (N : nat) : Prop :=
  exists s1 s2 s3 s4 tr,
    exec NDEBUG (repeat Enter N ++ repeat Exit N) ready_state = Done tt s4 tr /\
    count_os OsEnter tr = 1%nat /\
    count_os OsLeave tr = 1%nat /\
    criticalSectionNesting s4 = 0 /\
    Win32.held (criticalSection s4) = false /\
    UtilCriticalSectionEnter NDEBUG ready_state = Done tt s1 [OsEnter] /\
    exec NDEBUG (repeat Enter (N - 1)) s1 = Done tt s2 [] /\
    exec NDEBUG (repeat Exit (N - 1)) s2 = Done tt s3 [] /\
    UtilCriticalSectionExit NDEBUG s3 = Done tt s4 [OsLeave].

(** ** Invariants *)

(** The two invariants of the specification: a positive counter means that
    the primitive is held with exactly one outstanding acquisition; a
    cleared flag means that the counter is 0 and the object is not
    constructed. *)
Definition spec_invariant (s : state) : Prop :=
  (0 < criticalSectionNesting s -> criticalSection s = Constructed 1) /\
  (criticalSectionInitialized s = false ->
   criticalSectionNesting s = 0 /\ criticalSection s = NotConstructed).

(** What holds of every reachable state: the counter is a [uint32_t]; with
    the flag cleared the counter is 0 and the object is not constructed;
    with the flag set the object is constructed, and held when the counter
    is positive. *)
Definition lock_consistent (s : state) : Prop :=
  uint32_range (criticalSectionNesting s) /\
  if criticalSectionInitialized s then
    exists r, criticalSection s = Constructed r /\
              (0 < criticalSectionNesting s -> (0 < r)%nat)
  else
    criticalSectionNesting s = 0 /\ criticalSection s = NotConstructed.

(** ** Further statements *)

(** A call that breaks the precondition of its function: [Enter] or [Exit]
    while the module is not initialized, and [Exit] while the counter is
    not positive. *)
Definition misuse (c : api) (s : state) : bool :=
  match c with
  | Enter => negb (criticalSectionInitialized s)
  | Exit => negb (criticalSectionInitialized s)
            || negb (0 <? criticalSectionNesting s)
  | Initialize | Terminate => false
  end.

(** The call that each function may make to the primitive. *)
Definition os_call_of (c : api) : os_call :=
  match c with
  | Initialize => OsInitialize
  | Terminate => OsDelete
  | Enter => OsEnter
  | Exit => OsLeave
  end.

(** Depth of the region after the [Enter] and [Exit] calls of [l], from
    depth [d]. *)
Fixpoint depth_after (d : Z) (l : list api) : Z :=
  match l with
  | [] => d
  | Enter :: l' => depth_after (d + 1) l'
  | Exit :: l' => depth_after (d - 1) l'
  | _ :: l' => depth_after d l'
  end.

(** [l] is made of [Enter] and [Exit] calls only, never exits a region
    that is not open and never nests 2^32 deep. *)
Fixpoint well_nested (d : Z) (l : list api) : bool :=
  match l with
  | [] => true
  | Enter :: l' => (d + 1 <? UINT32_MODULUS) && well_nested (d + 1) l'
  | Exit :: l' => (0 <? d) && well_nested (d - 1) l'
  | _ :: _ => false
  end.

(** Recursion count of the primitive at depth [d]: one acquisition for the
    whole open region. *)
Definition hold_of (d : Z) : nat := if d =? 0 then 0%nat else 1%nat.

(** The module at depth [d] of a region. *)
Definition region_state (d : Z) : state :=
  mkState true d (Constructed (hold_of d)).


(** ** Wraps of the counter *)

(** [Enter] called with the counter at its maximum: the increment wraps
    the counter to 0. *)
Definition Enter_wraps (c : api) (s : state) : bool :=
  match c with
  | Enter => criticalSectionInitialized s
             && (criticalSectionNesting s =? UINT32_MAX)
  | _ => false
  end.

(** [Init] that constructs the object, [Terminate] that destroys it. *)
Definition constructs_or_destroys (c : api) (s : state) : bool :=
  match c with
  | Initialize => negb (criticalSectionInitialized s)
  | Terminate => criticalSectionInitialized s
  | _ => false
  end.

(** The number of wraps since the object was last constructed, after call
    [c] made in state [s], given that number before the call. *)
Definition wraps_step (c : api) (s : state) (w : nat) : nat :=
  if constructs_or_destroys c s then 0%nat
  else if Enter_wraps c s then S w
  else w.

(** The same after the calls of [l], made one after the other from [s]. *)
Fixpoint wraps_from (NDEBUG : bool) (l : list api) (s : state) (w : nat) : nat :=
  match l with
  | [] => w
  | c :: l' =>
      match call NDEBUG c s with
      | Done _ s' _ => wraps_from NDEBUG l' s' (wraps_step c s w)
      | AssertFail _ _ => w
      end
  end.

(** Number of [Enter] calls of history [h], run from the initial state,
    that were made with the counter at 2^32 - 1 since the object was last
    constructed. *)
Definition wraps_since_construct (NDEBUG : bool) (h : list api) : nat :=
  wraps_from NDEBUG h initial_state 0.

(** The recursion count of the object after [w] wraps: one acquisition for
    each wrap, and one more while the counter is positive. *)
Definition hold_count (w : nat) (s : state) : Prop :=
  criticalSectionInitialized s = true ->
  criticalSection s = Constructed (w + hold_of (criticalSectionNesting s)).

(** ** The contract of the primitive *)

(** [Terminate] called while the module is initialized and the primitive
    is held: the object is deleted while it is owned. *)
Definition deletes_held (c : api) (s : state) : bool :=
  match c with
  | Terminate => criticalSectionInitialized s
                 && Win32.held (criticalSection s)
  | _ => false
  end.

(** Some call of [l], made one after the other from [s], is such a
    [Terminate]. *)
Fixpoint Terminate_while_held (NDEBUG : bool) (l : list api) (s : state) : bool :=
  match l with
  | [] => false
  | c :: l' =>
      deletes_held c s
      || match call NDEBUG c s with
         | Done _ s' _ => Terminate_while_held NDEBUG l' s'
         | AssertFail _ _ => false
         end
  end.

(** * Properties *)

(** ** Closed forms of the four functions *)

Ltac run_monad :=
  unfold UtilCriticalSectionInit, UtilCriticalSectionTerminate,
    UtilCriticalSectionEnter, UtilCriticalSectionExit,
    InitializeCriticalSection, DeleteCriticalSection,
    EnterCriticalSection, LeaveCriticalSection,
    bind, when, ret, assert, os, get_Initialized, set_Initialized,
    get_Nesting, set_Nesting;
  simpl.

Lemma Init_eq (s : state) :
  UtilCriticalSectionInit s =
    if criticalSectionInitialized s
    then Done tt s []
    else Done tt ready_state [OsInitialize].
Proof.
  destruct s as [i n cs]; destruct i; run_monad; reflexivity.
Qed.

Lemma Terminate_eq (s : state) :
  UtilCriticalSectionTerminate s =
    if criticalSectionInitialized s
    then Done tt initial_state [OsDelete]
    else Done tt s [].
Proof.
  destruct s as [i n cs]; destruct i; run_monad; reflexivity.
Qed.

Lemma Enter_eq (NDEBUG : bool) (s : state) :
  UtilCriticalSectionEnter NDEBUG s =
    if criticalSectionInitialized s then
      if criticalSectionNesting s =? 0
      then Done tt (mkState true (wrap32 (criticalSectionNesting s + 1))
                      (Win32.enter (criticalSection s))) [OsEnter]
      else Done tt (mkState true (wrap32 (criticalSectionNesting s + 1))
                      (criticalSection s)) []
    else if NDEBUG then Done tt s [] else AssertFail s [].
Proof.
  destruct s as [i n cs]; destruct i, NDEBUG; run_monad;
    try reflexivity; destruct (n =? 0); reflexivity.
Qed.

Lemma Exit_eq (NDEBUG : bool) (s : state) :
  UtilCriticalSectionExit NDEBUG s =
    if criticalSectionInitialized s then
      if 0 <? criticalSectionNesting s then
        if wrap32 (criticalSectionNesting s - 1) =? 0
        then Done tt (mkState true (wrap32 (criticalSectionNesting s - 1))
                        (Win32.leave (criticalSection s))) [OsLeave]
        else Done tt (mkState true (wrap32 (criticalSectionNesting s - 1))
                        (criticalSection s)) []
      else if NDEBUG then Done tt s [] else AssertFail s []
    else if NDEBUG then Done tt s [] else AssertFail s [].
Proof.
  destruct s as [i n cs]; destruct i, NDEBUG; run_monad;
    try reflexivity;
    destruct (0 <? n) eqn:Hpos; simpl; rewrite ?Hpos; simpl;
    try reflexivity;
    destruct (wrap32 (n - 1) =? 0); reflexivity.
Qed.

(** ** Sequencing *)

Lemma exec_app (NDEBUG : bool) (l1 l2 : list api) (s s1 s2 : state) tr1 tr2 :
  exec NDEBUG l1 s = Done tt s1 tr1 ->
  exec NDEBUG l2 s1 = Done tt s2 tr2 ->
  exec NDEBUG (l1 ++ l2) s = Done tt s2 (tr1 ++ tr2).
Proof.
  revert s tr1. induction l1 as [|c l1 IH]; intros s tr1 H1 H2.
  - simpl in H1. unfold ret in H1. inversion H1; subst. exact H2.
  - simpl in *. unfold bind in *.
    destruct (call NDEBUG c s) as [[] sa tra|]; [|discriminate].
    destruct (exec NDEBUG l1 sa) as [[] sb trb|] eqn:E; [|discriminate].
    inversion H1; subst.
    rewrite (IH sa trb E H2). rewrite app_assoc. reflexivity.
Qed.

Lemma exec_one (NDEBUG : bool) (c : api) (s s' : state) tr :
  call NDEBUG c s = Done tt s' tr -> exec NDEBUG [c] s = Done tt s' tr.
Proof.
  intros H. simpl. unfold bind, ret. rewrite H, app_nil_r. reflexivity.
Qed.

(** A run that returns gives a reachable state. *)
Lemma exec_reachable (NDEBUG : bool) (l : list api) :
  forall h s s' tr,
    reachable NDEBUG h s -> exec NDEBUG l s = Done tt s' tr ->
    reachable NDEBUG (h ++ l) s'.
Proof.
  induction l as [|c l IH]; intros h s s' tr Hr He.
  - cbn [exec] in He. unfold ret in He. inversion He; subst.
    rewrite app_nil_r. exact Hr.
  - cbn [exec] in He. unfold bind in He.
    destruct (call NDEBUG c s) as [[] sa tra|] eqn:Ec; [|discriminate].
    destruct (exec NDEBUG l sa) as [[] sb trb|] eqn:El; [|discriminate].
    inversion He; subst.
    change (h ++ c :: l) with (h ++ [c] ++ l). rewrite app_assoc.
    apply (IH (h ++ [c]) sa s' trb); [|exact El].
    econstructor; [exact Hr|]. exists tra. exact Ec.
Qed.

(** ** [uint32_t] facts *)

Lemma wrap32_small (x : Z) : uint32_range x -> wrap32 x = x.
Proof. intros H. unfold wrap32. apply Z.mod_small. exact H. Qed.

Lemma wrap32_range (x : Z) : uint32_range (wrap32 x).
Proof.
  unfold wrap32, uint32_range. apply Z.mod_pos_bound.
  unfold UINT32_MODULUS. lia.
Qed.

Lemma wrap32_modulus : wrap32 UINT32_MODULUS = 0.
Proof. unfold wrap32. apply Z.mod_same. unfold UINT32_MODULUS. lia. Qed.

Lemma wrap32_add_l (x y : Z) : wrap32 (wrap32 x + y) = wrap32 (x + y).
Proof.
  unfold wrap32. apply Zplus_mod_idemp_l.
Qed.

(** ** Runs of [Enter] and of [Exit] *)

Ltac fields :=
  cbn [criticalSectionInitialized criticalSectionNesting criticalSection] in *.

(** [k] further [Enter] calls inside an open region, as long as the counter
    goes no further than its first wrap: no call to the primitive. *)
Lemma exec_Enters_nested (NDEBUG : bool) (k : nat) :
  forall s,
    criticalSectionInitialized s = true ->
    0 < criticalSectionNesting s < UINT32_MODULUS ->
    criticalSectionNesting s + Z.of_nat k <= UINT32_MODULUS ->
    exec NDEBUG (repeat Enter k) s =
      Done tt (mkState true (wrap32 (criticalSectionNesting s + Z.of_nat k))
                 (criticalSection s)) [].
Proof.
  induction k as [|k IH]; intros [i n cs] Hi Hn Hk; fields; subst i.
  - cbn [repeat exec]. unfold ret.
    change (Z.of_nat 0) with 0.
    rewrite Z.add_0_r, wrap32_small by (unfold uint32_range; lia).
    reflexivity.
  - cbn [repeat exec call]. unfold bind. rewrite Enter_eq. fields.
    replace (n =? 0) with false by (symmetry; apply Z.eqb_neq; lia).
    destruct k as [|k'].
    + cbn [repeat exec]. unfold ret. reflexivity.
    + assert (Hr : uint32_range (n + 1)) by (unfold uint32_range; lia).
      rewrite (wrap32_small _ Hr).
      rewrite IH; fields; [| reflexivity | unfold uint32_range in Hr; lia | lia ].
      replace (n + 1 + Z.of_nat (S k')) with (n + Z.of_nat (S (S k'))) by lia.
      reflexivity.
Qed.

(** [k] [Exit] calls that leave the region open: no call to the primitive. *)
Lemma exec_Exits_nested (NDEBUG : bool) (k : nat) :
  forall s,
    criticalSectionInitialized s = true ->
    Z.of_nat k < criticalSectionNesting s < UINT32_MODULUS ->
    exec NDEBUG (repeat Exit k) s =
      Done tt (mkState true (criticalSectionNesting s - Z.of_nat k)
                 (criticalSection s)) [].
Proof.
  induction k as [|k IH]; intros [i n cs] Hi Hn; fields; subst i.
  - cbn [repeat exec]. unfold ret. change (Z.of_nat 0) with 0.
    rewrite Z.sub_0_r. reflexivity.
  - cbn [repeat exec call]. unfold bind. rewrite Exit_eq. fields.
    replace (0 <? n) with true by (symmetry; apply Z.ltb_lt; lia).
    rewrite wrap32_small by (unfold uint32_range; lia).
    replace (n - 1 =? 0) with false by (symmetry; apply Z.eqb_neq; lia).
    rewrite IH; fields; [| reflexivity | lia ].
    replace (n - 1 - Z.of_nat k) with (n - Z.of_nat (S k)) by lia.
    reflexivity.
Qed.

(** In a release build, [Exit] calls at nesting 0 change nothing. *)
Lemma exec_Exits_idle (k : nat) (s : state) :
  criticalSectionInitialized s = true ->
  criticalSectionNesting s = 0 ->
  exec true (repeat Exit k) s = Done tt s [].
Proof.
  intros Hi Hn. induction k as [|k IH]; cbn [repeat exec].
  - reflexivity.
  - unfold bind. cbn [call]. rewrite Exit_eq, Hi, Hn.
    change (0 <? 0) with false. cbv iota. rewrite IH. reflexivity.
Qed.

(** Whatever the number of [Enter] calls, they all return and the counter
    has advanced by that number modulo 2^32. *)
Lemma exec_Enters_counter (NDEBUG : bool) (k : nat) :
  forall s,
    criticalSectionInitialized s = true ->
    uint32_range (criticalSectionNesting s) ->
    exists s' tr,
      exec NDEBUG (repeat Enter k) s = Done tt s' tr /\
      criticalSectionInitialized s' = true /\
      criticalSectionNesting s' = wrap32 (criticalSectionNesting s + Z.of_nat k).
Proof.
  induction k as [|k IH]; intros s Hi Hn.
  - exists s, []. repeat split; [exact Hi|].
    change (Z.of_nat 0) with 0. rewrite Z.add_0_r, wrap32_small; auto.
  - cbn [repeat exec call]. unfold bind. rewrite Enter_eq, Hi.
    destruct (criticalSectionNesting s =? 0).
    all: match goal with
      | |- context [exec _ _ ?s1] =>
          destruct (IH s1 eq_refl (wrap32_range _)) as (s' & tr & He & Hi' & Hn')
      end.
    all: rewrite He; fields; rewrite wrap32_add_l in Hn'.
    all: eexists; eexists; repeat split; [exact Hi'|].
    all: rewrite Hn'; f_equal; lia.
Qed.

(** ** Enter *)

(** C2 (as amended): when the module is initialized, Enter acquires the OS
    lock if and only if the nesting counter is 0 (and does not acquire it
    again when the counter is greater than 0), and then increments the
    counter by one modulo 2^32 in every case: by exactly one below
    2^32 - 1, and from 2^32 - 1 back to 0. *)
Theorem Enter_acquires_iff_unnested (NDEBUG : bool) (s : state) :
  criticalSectionInitialized s = true ->
  uint32_range (criticalSectionNesting s) ->
  Enter_increments_uint32 NDEBUG s.
Proof.
  intros Hi Hr. unfold Enter_increments_uint32.
  rewrite Enter_eq, Hi.
  destruct (criticalSectionNesting s =? 0) eqn:E.
  - apply Z.eqb_eq in E.
    eexists; eexists; split; [reflexivity|]. fields.
    rewrite E. change (wrap32 (0 + 1)) with 1.
    unfold UINT32_MAX.
    repeat split; try reflexivity; try lia; try (intros; simpl; auto).
  - apply Z.eqb_neq in E.
    eexists; eexists; split; [reflexivity|]. fields.
    unfold uint32_range, UINT32_MODULUS in Hr. unfold UINT32_MAX.
    repeat split; try reflexivity; try lia; try (intros []; fail);
      try (intros; contradiction).
    + intros Hlt. apply wrap32_small. unfold uint32_range, UINT32_MODULUS. lia.
    + intros Hmax. rewrite Hmax. reflexivity.
Qed.

Lemma Enter_acquires_iff_unnested_witness :
  Enter_increments_uint32 true (mkState true 1 (Constructed 1)).
Proof.
  apply (Enter_acquires_iff_unnested true (mkState true 1 (Constructed 1))).
  - reflexivity.
  - unfold uint32_range, UINT32_MODULUS; simpl; lia.
Defined.

(** C2 as stated fails when the counter is at its maximum: the call
    returns with the counter at 0, not one higher. *)
Lemma Enter_increment_wraps :
  criticalSectionInitialized (mkState true UINT32_MAX (Constructed 1)) = true /\
  UtilCriticalSectionEnter true (mkState true UINT32_MAX (Constructed 1)) =
    Done tt (mkState true 0 (Constructed 1)) [] /\
  ~ Enter_increments true (mkState true UINT32_MAX (Constructed 1)).
Proof.
  split; [reflexivity|]. split; [reflexivity|].
  intros (s' & tr & He & _ & Hn).
  assert (E : UtilCriticalSectionEnter true (mkState true UINT32_MAX (Constructed 1)) =
              Done tt (mkState true 0 (Constructed 1)) []) by reflexivity.
  rewrite E in He. inversion He; subst. fields. unfold UINT32_MAX in Hn. lia.
Qed.

(** ** Nested regions *)

(** From the counter at 0, as many [Enter] calls as the counter has values:
    the first one acquires, the last one wraps the counter to 0. *)
Lemma exec_Enters_wrap (NDEBUG : bool) (k : nat) (s : state) :
  criticalSectionInitialized s = true ->
  criticalSectionNesting s = 0 ->
  Z.of_nat k = UINT32_MODULUS ->
  exec NDEBUG (repeat Enter k) s =
    Done tt (mkState true 0 (Win32.enter (criticalSection s))) [OsEnter].
Proof.
  intros Hi Hn Hk. destruct k as [|k].
  - unfold UINT32_MODULUS in Hk. discriminate Hk.
  - cbn [repeat exec call]. unfold bind. rewrite Enter_eq, Hi, Hn.
    change (0 =? 0) with true. cbv iota.
    change (wrap32 (0 + 1)) with 1.
    rewrite exec_Enters_nested; fields.
    + replace (1 + Z.of_nat k) with UINT32_MODULUS by lia.
      rewrite wrap32_modulus. reflexivity.
    + reflexivity.
    + unfold UINT32_MODULUS. lia.
    + lia.
Qed.

Lemma ready_after_Init :
  UtilCriticalSectionInit initial_state = Done tt ready_state [OsInitialize].
Proof. reflexivity. Qed.

(** C1 (as amended): for every N with 1 <= N < 2^32, from the state right
    after one Initialize, N Enter calls followed by N Exit calls acquire
    the OS lock exactly once (on the first Enter), release it exactly once
    (on the last Exit), and leave nesting at 0 with the OS lock unheld. *)
Theorem balanced_region_below_wrap (NDEBUG : bool) (N : nat) :
  (1 <= N)%nat ->
  Z.of_nat N < UINT32_MODULUS ->
  balanced_region NDEBUG N.
Proof.
  intros H1 Hlt. destruct N as [|n]; [lia|].
  unfold balanced_region.
  replace (S n - 1)%nat with n by lia.
  assert (E1 : UtilCriticalSectionEnter NDEBUG ready_state =
               Done tt (mkState true 1 (Constructed 1)) [OsEnter])
    by (rewrite Enter_eq; reflexivity).
  assert (E2 : exec NDEBUG (repeat Enter n) (mkState true 1 (Constructed 1)) =
               Done tt (mkState true (1 + Z.of_nat n) (Constructed 1)) []).
  { rewrite exec_Enters_nested; fields;
      [| reflexivity | unfold UINT32_MODULUS; lia | lia].
    rewrite wrap32_small by (unfold uint32_range; lia). reflexivity. }
  assert (E3 : exec NDEBUG (repeat Exit n)
                 (mkState true (1 + Z.of_nat n) (Constructed 1)) =
               Done tt (mkState true 1 (Constructed 1)) []).
  { rewrite exec_Exits_nested; fields; [| reflexivity | lia].
    replace (1 + Z.of_nat n - Z.of_nat n) with 1 by lia. reflexivity. }
  assert (E4 : UtilCriticalSectionExit NDEBUG (mkState true 1 (Constructed 1)) =
               Done tt ready_state [OsLeave])
    by (rewrite Exit_eq; reflexivity).
  exists (mkState true 1 (Constructed 1)),
         (mkState true (1 + Z.of_nat n) (Constructed 1)),
         (mkState true 1 (Constructed 1)),
         ready_state, [OsEnter; OsLeave].
  repeat split; try assumption.
  cbn [repeat]. rewrite (repeat_cons n Exit).
  change (Enter :: repeat Enter n ++ repeat Exit n ++ [Exit])
    with ([Enter] ++ repeat Enter n ++ repeat Exit n ++ [Exit]).
  apply (exec_app NDEBUG [Enter] _ _ _ _ [OsEnter] [OsLeave] (exec_one NDEBUG Enter _ _ _ E1)).
  apply (exec_app NDEBUG _ _ _ _ _ [] [OsLeave] E2).
  apply (exec_app NDEBUG _ _ _ _ _ [] [OsLeave] E3).
  apply (exec_one NDEBUG Exit). exact E4.
Qed.

Lemma balanced_region_below_wrap_witness : balanced_region true 2.
Proof.
  apply (balanced_region_below_wrap true 2).
  - lia.
  - unfold UINT32_MODULUS. simpl. lia.
Defined.

(** C1 as stated fails at N = 2^32 in a release build: the counter wraps
    to 0 on the last [Enter], every [Exit] then finds it at 0 and does
    nothing, so the primitive is never released and stays held. *)
Lemma balanced_region_fails_at_wrap :
  exec true (repeat Enter (Z.to_nat UINT32_MODULUS) ++
             repeat Exit (Z.to_nat UINT32_MODULUS)) ready_state =
    Done tt (mkState true 0 (Constructed 1)) [OsEnter] /\
  ~ balanced_region true (Z.to_nat UINT32_MODULUS).
Proof.
  assert (E : exec true (repeat Enter (Z.to_nat UINT32_MODULUS) ++
                         repeat Exit (Z.to_nat UINT32_MODULUS)) ready_state =
              Done tt (mkState true 0 (Constructed 1)) [OsEnter]).
  { apply (exec_app true _ _ _ (mkState true 0 (Constructed 1)) _ [OsEnter] []).
    - apply (exec_Enters_wrap true _ ready_state eq_refl eq_refl).
      apply Z2Nat.id. unfold UINT32_MODULUS. lia.
    - apply exec_Exits_idle; reflexivity. }
  split; [exact E|].
  intros (s1 & s2 & s3 & s4 & tr & He & _ & Hl & _).
  rewrite E in He. inversion He; subst tr. discriminate Hl.
Qed.

(** ** Init and Terminate *)

Lemma exec_Inits_ready (NDEBUG : bool) (k : nat) (s : state) :
  criticalSectionInitialized s = true ->
  exec NDEBUG (repeat Initialize k) s = Done tt s [].
Proof.
  intros Hi. induction k as [|k IH]; cbn [repeat exec call].
  - reflexivity.
  - unfold bind. rewrite Init_eq, Hi, IH. reflexivity.
Qed.

(** C4: Initialize is idempotent.  For every N >= 1 and from every state,
    N calls in a row give the same outcome (state and calls to the
    primitive) as one call; and when the first call is effective (the
    module was not initialized), the lock is constructed once, by that
    call only, and right afterwards nesting is 0, the flag is set and the
    lock is not held. *)
Theorem Init_idempotent (NDEBUG : bool) (N : nat) (s : state) :
  (1 <= N)%nat ->
  exec NDEBUG (repeat Initialize N) s = exec NDEBUG [Initialize] s /\
  (criticalSectionInitialized s = false ->
   exists s',
     exec NDEBUG (repeat Initialize N) s = Done tt s' [OsInitialize] /\
     criticalSectionInitialized s' = true /\
     criticalSectionNesting s' = 0 /\
     criticalSection s' = Constructed 0 /\
     Win32.held (criticalSection s') = false).
Proof.
  intros HN. destruct N as [|n]; [lia|].
  assert (E : exec NDEBUG (repeat Initialize (S n)) s =
              if criticalSectionInitialized s
              then Done tt s []
              else Done tt ready_state [OsInitialize]).
  { cbn [repeat exec call]. unfold bind. rewrite Init_eq.
    destruct (criticalSectionInitialized s) eqn:Hi.
    - rewrite (exec_Inits_ready NDEBUG n s Hi). reflexivity.
    - rewrite (exec_Inits_ready NDEBUG n ready_state eq_refl). reflexivity. }
  split.
  - rewrite E. cbn [exec call]. unfold bind, ret. rewrite Init_eq.
    destruct (criticalSectionInitialized s); reflexivity.
  - intros Hi. rewrite E, Hi. exists ready_state. repeat split.
Qed.

Lemma Init_idempotent_witness :
  exec true (repeat Initialize 3) initial_state = exec true [Initialize] initial_state /\
  (criticalSectionInitialized initial_state = false ->
   exists s',
     exec true (repeat Initialize 3) initial_state = Done tt s' [OsInitialize] /\
     criticalSectionInitialized s' = true /\
     criticalSectionNesting s' = 0 /\
     criticalSection s' = Constructed 0 /\
     Win32.held (criticalSection s') = false).
Proof.
  apply (Init_idempotent true 3 initial_state). lia.
Defined.

(** C5: Terminate is idempotent.  Called while the module is not
    initialized it leaves the whole state unchanged and makes no call to
    the primitive (no destroy); called once while initialized with
    nesting 0 it destroys the lock, leaves nesting at 0 and clears the
    flag, which is the uninitialized state; a second call in a row adds
    nothing to the first. *)
Theorem Terminate_idempotent (NDEBUG : bool) (s : state) :
  (criticalSectionInitialized s = false ->
   UtilCriticalSectionTerminate s = Done tt s []) /\
  (criticalSectionInitialized s = true ->
   criticalSectionNesting s = 0 ->
   UtilCriticalSectionTerminate s =
     Done tt (mkState false 0 NotConstructed) [OsDelete]) /\
  exec NDEBUG [Terminate; Terminate] s = exec NDEBUG [Terminate] s.
Proof.
  split; [|split].
  - intros Hi. rewrite Terminate_eq, Hi. reflexivity.
  - intros Hi _. rewrite Terminate_eq, Hi. reflexivity.
  - cbn [exec call]. unfold bind, ret. rewrite Terminate_eq.
    destruct (criticalSectionInitialized s) eqn:Hi.
    + reflexivity.
    + rewrite Terminate_eq, Hi. reflexivity.
Qed.

Lemma Terminate_idempotent_witness :
  UtilCriticalSectionTerminate initial_state = Done tt initial_state [] /\
  UtilCriticalSectionTerminate ready_state = Done tt initial_state [OsDelete].
Proof.
  destruct (Terminate_idempotent true initial_state) as (Hoff & _ & _).
  destruct (Terminate_idempotent true ready_state) as (_ & Hon & _).
  split.
  - apply Hoff. reflexivity.
  - apply Hon; reflexivity.
Defined.

(** C8: two modules that each initialize at startup and each terminate at
    shutdown: over Initialize; Initialize; Terminate; Terminate from the
    initial state the lock is constructed exactly once and destroyed
    exactly once, and the module is back in its initial state. *)
Theorem two_modules_construct_once (NDEBUG : bool) :
  exists tr,
    exec NDEBUG [Initialize; Initialize; Terminate; Terminate] initial_state =
      Done tt initial_state tr /\
    tr = [OsInitialize; OsDelete] /\
    count_os OsInitialize tr = 1%nat /\
    count_os OsDelete tr = 1%nat.
Proof.
  exists [OsInitialize; OsDelete]. repeat split.
Qed.

(** C9: Terminate does not look at the nesting counter.  In every
    initialized state, whatever the counter and whether or not the lock is
    held, it clears the flag, sets nesting to 0 and destroys the lock, and
    it never releases the lock first: its only call to the primitive is
    the destroy. *)
Theorem Terminate_ignores_nesting (s : state) :
  criticalSectionInitialized s = true ->
  exists s' tr,
    UtilCriticalSectionTerminate s = Done tt s' tr /\
    criticalSectionInitialized s' = false /\
    criticalSectionNesting s' = 0 /\
    criticalSection s' = NotConstructed /\
    tr = [OsDelete] /\
    count_os OsDelete tr = 1%nat /\
    count_os OsLeave tr = 0%nat.
Proof.
  intros Hi. exists initial_state, [OsDelete].
  rewrite Terminate_eq, Hi. repeat split.
Qed.

Lemma Terminate_ignores_nesting_witness :
  exists s' tr,
    UtilCriticalSectionTerminate (mkState true 3 (Constructed 1)) = Done tt s' tr /\
    criticalSectionInitialized s' = false /\
    criticalSectionNesting s' = 0 /\
    criticalSection s' = NotConstructed /\
    tr = [OsDelete] /\
    count_os OsDelete tr = 1%nat /\
    count_os OsLeave tr = 0%nat.
Proof.
  apply (Terminate_ignores_nesting (mkState true 3 (Constructed 1))).
  reflexivity.
Defined.

(** ** Misuse *)

(** C6: Exit without a matching Enter.  When the module is initialized and
    nesting is 0, Exit neither decrements the counter nor releases the
    lock: a release build returns with the state unchanged, and a debug
    build stops at the assertion, before anything was changed. *)
Theorem Exit_unmatched_noop (NDEBUG : bool) (s : state) :
  criticalSectionInitialized s = true ->
  criticalSectionNesting s = 0 ->
  UtilCriticalSectionExit NDEBUG s =
    (if NDEBUG then Done tt s [] else AssertFail s []) /\
  out_state (UtilCriticalSectionExit NDEBUG s) = s /\
  criticalSectionNesting (out_state (UtilCriticalSectionExit NDEBUG s)) = 0 /\
  count_os OsLeave (out_trace (UtilCriticalSectionExit NDEBUG s)) = 0%nat.
Proof.
  intros Hi Hn. rewrite Exit_eq, Hi, Hn. change (0 <? 0) with false.
  cbv iota. destruct NDEBUG; repeat split; assumption.
Qed.

Lemma Exit_unmatched_noop_witness :
  UtilCriticalSectionExit true ready_state = Done tt ready_state [] /\
  out_state (UtilCriticalSectionExit true ready_state) = ready_state /\
  criticalSectionNesting (out_state (UtilCriticalSectionExit true ready_state)) = 0 /\
  count_os OsLeave (out_trace (UtilCriticalSectionExit true ready_state)) = 0%nat.
Proof.
  apply (Exit_unmatched_noop true ready_state); reflexivity.
Defined.

(** C7: Enter or Exit while the module is not initialized is, in a release
    build, a no-op: the call returns, no field of the state is modified
    and no call is made to the primitive. *)
Theorem uninitialized_calls_noop (s : state) :
  criticalSectionInitialized s = false ->
  UtilCriticalSectionEnter true s = Done tt s [] /\
  UtilCriticalSectionExit true s = Done tt s [].
Proof.
  intros Hi. rewrite Enter_eq, Exit_eq, Hi. split; reflexivity.
Qed.

Lemma uninitialized_calls_noop_witness :
  UtilCriticalSectionEnter true initial_state = Done tt initial_state [] /\
  UtilCriticalSectionExit true initial_state = Done tt initial_state [].
Proof.
  apply (uninitialized_calls_noop initial_state). reflexivity.
Defined.

(** ** The nesting counter wraps *)

(** C10: the nesting counter is a 32-bit unsigned integer and Enter
    increments it with no overflow guard.  From an initialized state with
    nesting 0 (lock constructed), k Enter calls in a row all return and
    leave the counter at k modulo 2^32; so 2^32 Enter calls acquire the
    lock once and bring the counter back to 0 with the lock still held,
    and the next Enter calls the acquire operation again. *)
Theorem nesting_counter_wraps (NDEBUG : bool) (s : state) (r : nat) :
  criticalSectionInitialized s = true ->
  criticalSectionNesting s = 0 ->
  criticalSection s = Constructed r ->
  (forall k : nat,
     exists s' tr,
       exec NDEBUG (repeat Enter k) s = Done tt s' tr /\
       criticalSectionNesting s' = Z.of_nat k mod 2 ^ 32) /\
  (exists s',
     exec NDEBUG (repeat Enter (Z.to_nat (2 ^ 32))) s = Done tt s' [OsEnter] /\
     criticalSectionNesting s' = 0 /\
     criticalSection s' = Constructed (S r) /\
     Win32.held (criticalSection s') = true /\
     UtilCriticalSectionEnter NDEBUG s' =
       Done tt (mkState true 1 (Constructed (S (S r)))) [OsEnter]).
Proof.
  intros Hi Hn Hcs. split.
  - intros k.
    destruct (exec_Enters_counter NDEBUG k s Hi) as (s' & tr & He & _ & Hn').
    + rewrite Hn. unfold uint32_range, UINT32_MODULUS. lia.
    + exists s', tr. split; [exact He|].
      rewrite Hn', Hn. reflexivity.
  - exists (mkState true 0 (Constructed (S r))).
    assert (Hk : Z.of_nat (Z.to_nat (2 ^ 32)) = UINT32_MODULUS)
      by (change UINT32_MODULUS with (2 ^ 32); apply Z2Nat.id; lia).
    rewrite (exec_Enters_wrap NDEBUG _ s Hi Hn Hk), Hcs.
    rewrite Enter_eq. repeat split.
Qed.

Lemma nesting_counter_wraps_witness :
  (forall k : nat,
     exists s' tr,
       exec true (repeat Enter k) ready_state = Done tt s' tr /\
       criticalSectionNesting s' = Z.of_nat k mod 2 ^ 32) /\
  (exists s',
     exec true (repeat Enter (Z.to_nat (2 ^ 32))) ready_state = Done tt s' [OsEnter] /\
     criticalSectionNesting s' = 0 /\
     criticalSection s' = Constructed 1 /\
     Win32.held (criticalSection s') = true /\
     UtilCriticalSectionEnter true s' =
       Done tt (mkState true 1 (Constructed 2)) [OsEnter]).
Proof.
  apply (nesting_counter_wraps true ready_state 0); reflexivity.
Defined.

(** ** Invariants of the reachable states *)

Ltac step_cases Hc :=
  cbn [call] in Hc;
  rewrite ?Init_eq, ?Terminate_eq, ?Enter_eq, ?Exit_eq in Hc;
  unfold ready_state, initial_state in Hc;
  fields.

Lemma lock_consistent_initial : lock_consistent initial_state.
Proof.
  unfold lock_consistent, uint32_range, UINT32_MODULUS, initial_state; fields.
  split; [lia|]. split; reflexivity.
Qed.

Lemma lock_consistent_ready : lock_consistent ready_state.
Proof.
  unfold lock_consistent, uint32_range, UINT32_MODULUS, ready_state; fields.
  split; [lia|]. exists 0%nat. split; [reflexivity|lia].
Qed.

Lemma step_lock_consistent (NDEBUG : bool) (s : state) (c : api) (s' : state) :
  lock_consistent s -> step NDEBUG s c s' -> lock_consistent s'.
Proof.
  destruct s as [i n cs]. intros [Hr Hl] [tr Hc]. fields.
  assert (Hn : 0 <= n < 4294967296) by exact Hr.
  destruct c; step_cases Hc.
  - (* Initialize *)
    destruct i; inversion Hc; subst.
    + split; assumption.
    + apply lock_consistent_ready.
  - (* Terminate *)
    destruct i; inversion Hc; subst.
    + apply lock_consistent_initial.
    + split; assumption.
  - (* Enter *)
    destruct i.
    + destruct Hl as (r & Hcs & Hheld). subst cs.
      destruct (n =? 0) eqn:E; inversion Hc; subst;
        (split; fields; [apply wrap32_range|]).
      * exists (S r). split; [reflexivity|lia].
      * apply Z.eqb_neq in E. exists r. split; [reflexivity|].
        intros _. apply Hheld. lia.
    + destruct NDEBUG; inversion Hc; subst. split; assumption.
  - (* Exit *)
    destruct i.
    + destruct Hl as (r & Hcs & Hheld). subst cs.
      destruct (0 <? n) eqn:Epos.
      * apply Z.ltb_lt in Epos.
        destruct (wrap32 (n - 1) =? 0) eqn:E; inversion Hc; subst;
          (split; fields; [apply wrap32_range|]).
        -- apply Z.eqb_eq in E. exists (Nat.pred r).
           split; [reflexivity|]. rewrite E. lia.
        -- exists r. split; [reflexivity|]. intros _. apply Hheld. exact Epos.
      * destruct NDEBUG; inversion Hc; subst.
        split; [assumption|]. exists r. split; [reflexivity|assumption].
    + destruct NDEBUG; inversion Hc; subst. split; assumption.
Qed.

Lemma reachable_lock_consistent (NDEBUG : bool) (h : list api) (s : state) :
  reachable NDEBUG h s -> lock_consistent s.
Proof.
  induction 1 as [|h s c s' _ IH Hstep].
  - apply lock_consistent_initial.
  - exact (step_lock_consistent NDEBUG s c s' IH Hstep).
Qed.

Lemma hold_of_pos (n : Z) : n <> 0 -> hold_of n = 1%nat.
Proof.
  intros H. unfold hold_of.
  replace (n =? 0) with false by (symmetry; apply Z.eqb_neq; exact H).
  reflexivity.
Qed.

(** One call keeps the account of the acquisitions: the recursion count of
    the object is the number of wraps since it was constructed, plus one
    while the counter is positive. *)
Lemma step_hold_count (NDEBUG : bool) (w : nat) (s : state) (c : api)
  (s' : state) (tr : list os_call) :
  lock_consistent s ->
  hold_count w s ->
  call NDEBUG c s = Done tt s' tr ->
  hold_count (wraps_step c s w) s'.
Proof.
  destruct s as [i n cs]. intros [Hr _] Hs Hc.
  unfold hold_count in Hs |- *.
  unfold wraps_step, constructs_or_destroys, Enter_wraps, UINT32_MAX.
  fields.
  assert (Hn : 0 <= n < 4294967296) by exact Hr.
  destruct c; step_cases Hc.
  - (* Initialize *)
    destruct i; inversion Hc; subst; fields; cbn [negb].
    + exact Hs.
    + intros _. reflexivity.
  - (* Terminate *)
    destruct i; inversion Hc; subst; fields.
    + intros H; discriminate H.
    + exact Hs.
  - (* Enter *)
    destruct i; cbn [andb].
    + specialize (Hs eq_refl). subst cs.
      destruct (n =? 0) eqn:E; inversion Hc; subst; fields; intros _.
      * apply Z.eqb_eq in E. subst n.
        change (0 =? 4294967295) with false. cbv iota.
        change (wrap32 (0 + 1)) with 1. cbn [Win32.enter].
        f_equal. unfold hold_of. cbn. lia.
      * apply Z.eqb_neq in E. rewrite (hold_of_pos n E).
        destruct (n =? 4294967295) eqn:Emax.
        -- apply Z.eqb_eq in Emax. subst n.
           change (wrap32 (4294967295 + 1)) with 0.
           f_equal. unfold hold_of. cbn. lia.
        -- apply Z.eqb_neq in Emax.
           rewrite wrap32_small
             by (unfold uint32_range, UINT32_MODULUS; lia).
           rewrite (hold_of_pos (n + 1)) by lia. reflexivity.
    + destruct NDEBUG; inversion Hc; subst. intros H; discriminate H.
  - (* Exit *)
    destruct i.
    + specialize (Hs eq_refl). subst cs.
      destruct (0 <? n) eqn:Epos.
      * apply Z.ltb_lt in Epos.
        assert (Hsmall : wrap32 (n - 1) = n - 1)
          by (apply wrap32_small; unfold uint32_range, UINT32_MODULUS; lia).
        rewrite Hsmall in Hc. rewrite (hold_of_pos n) in Hc by lia.
        destruct (n - 1 =? 0) eqn:E; inversion Hc; subst; fields; intros _.
        -- apply Z.eqb_eq in E. rewrite E. cbn [Win32.leave].
           f_equal. unfold hold_of. cbn. lia.
        -- apply Z.eqb_neq in E. rewrite (hold_of_pos (n - 1) E). reflexivity.
      * destruct NDEBUG; inversion Hc; subst. intros _. reflexivity.
    + destruct NDEBUG; inversion Hc; subst. intros H; discriminate H.
Qed.

Lemma exec_hold_count (NDEBUG : bool) (l : list api) :
  forall s w s' tr,
    lock_consistent s ->
    hold_count w s ->
    exec NDEBUG l s = Done tt s' tr ->
    hold_count (wraps_from NDEBUG l s w) s'.
Proof.
  induction l as [|c l IH]; intros s w s' tr Hcons Hs He.
  - cbn [exec] in He. unfold ret in He. inversion He; subst. exact Hs.
  - cbn [exec] in He. unfold bind in He. cbn [wraps_from].
    destruct (call NDEBUG c s) as [[] s1 tr1|] eqn:Ec; [|discriminate He].
    destruct (exec NDEBUG l s1) as [[] s2 tr2|] eqn:El; [|discriminate He].
    inversion He; subst.
    apply (IH s1 (wraps_step c s w) s' tr2).
    + apply (step_lock_consistent NDEBUG s c s1 Hcons). exists tr1. exact Ec.
    + exact (step_hold_count NDEBUG w s c s1 tr1 Hcons Hs Ec).
    + exact El.
Qed.

(** A reachable state is the state in which the run of its history ends. *)
Lemma reachable_exec (NDEBUG : bool) (h : list api) (s : state) :
  reachable NDEBUG h s ->
  exists tr, exec NDEBUG h initial_state = Done tt s tr.
Proof.
  induction 1 as [|h s c s' _ [tr IH] [tr1 Hstep]].
  - exists []. reflexivity.
  - exists (tr ++ tr1).
    apply (exec_app NDEBUG h [c] initial_state s s' tr tr1 IH).
    apply exec_one. exact Hstep.
Qed.

(** C3 (as amended): in every state reachable by a sequence of Initialize,
    Terminate, Enter and Exit calls from the initial state, initialized ==
    false implies nesting == 0 and the OS lock not constructed, and
    nesting > 0 implies that the OS lock is held, with exactly 1 + W
    outstanding acquisitions, where W is the number of Enter calls made
    while nesting was 2^32 - 1 since the lock was last constructed.  So
    nesting > 0 implies exactly one outstanding acquisition in every
    state reached without such an Enter call (W = 0), however many calls
    were made, and only there. *)
Theorem reachable_invariant (NDEBUG : bool) (h : list api) (s : state) :
  reachable NDEBUG h s ->
  (criticalSectionInitialized s = false ->
   criticalSectionNesting s = 0 /\ criticalSection s = NotConstructed) /\
  (0 < criticalSectionNesting s -> Win32.held (criticalSection s) = true) /\
  (0 < criticalSectionNesting s ->
   criticalSection s = Constructed (S (wraps_since_construct NDEBUG h))) /\
  (wraps_since_construct NDEBUG h = 0%nat -> spec_invariant s) /\
  (0 < criticalSectionNesting s ->
   criticalSection s = Constructed 1 ->
   wraps_since_construct NDEBUG h = 0%nat).
Proof.
  intros Hreach.
  pose proof (reachable_lock_consistent NDEBUG h s Hreach) as [Hr Hl].
  assert (Hoff : criticalSectionInitialized s = false ->
                 criticalSectionNesting s = 0 /\
                 criticalSection s = NotConstructed).
  { intros Hi. rewrite Hi in Hl. exact Hl. }
  assert (Hcount : 0 < criticalSectionNesting s ->
            criticalSection s =
              Constructed (S (wraps_since_construct NDEBUG h))).
  { intros Hpos. destruct (criticalSectionInitialized s) eqn:Hi.
    - destruct (reachable_exec NDEBUG h s Hreach) as [tr He].
      assert (H0 : hold_count 0 initial_state)
        by (intros H; discriminate H).
      pose proof (exec_hold_count NDEBUG h initial_state 0%nat s tr
                    lock_consistent_initial H0 He Hi) as Hcs.
      rewrite hold_of_pos in Hcs by lia.
      rewrite Hcs. unfold wraps_since_construct. f_equal. lia.
    - destruct (Hoff eq_refl) as [Hz _]. lia. }
  split; [exact Hoff|]. split; [|split; [exact Hcount|split]].
  - intros Hpos. rewrite (Hcount Hpos). reflexivity.
  - intros Hw. split; [|exact Hoff].
    intros Hpos. rewrite (Hcount Hpos), Hw. reflexivity.
  - intros Hpos Hone. rewrite (Hcount Hpos) in Hone.
    inversion Hone. reflexivity.
Qed.

Lemma reachable_invariant_witness :
  reachable true [Initialize; Enter] (mkState true 1 (Constructed 1)) /\
  Win32.held (Constructed 1) = true /\
  wraps_since_construct true [Initialize; Enter] = 0%nat /\
  spec_invariant (mkState true 1 (Constructed 1)).
Proof.
  assert (Hreach : reachable true [Initialize; Enter] (mkState true 1 (Constructed 1))).
  { apply (exec_reachable true [Initialize; Enter] [] initial_state _ [OsInitialize; OsEnter]).
    - apply reachable_initial.
    - reflexivity. }
  destruct (reachable_invariant true _ _ Hreach) as (_ & Hheld & _ & Hinv & _).
  split; [exact Hreach|]. split; [|split].
  - apply Hheld. simpl. lia.
  - reflexivity.
  - apply Hinv. reflexivity.
Defined.

(** C3 as stated fails once the counter has wrapped: after Initialize and
    2^32 + 1 [Enter] calls the counter is 1 and the primitive has been
    acquired twice. *)
Lemma invariant_fails_after_wrap :
  reachable true
    (Initialize :: repeat Enter (Z.to_nat UINT32_MODULUS) ++ [Enter])
    (mkState true 1 (Constructed 2)) /\
  ~ spec_invariant (mkState true 1 (Constructed 2)).
Proof.
  split.
  - apply (exec_reachable true _ [] initial_state _ ([OsInitialize] ++ [OsEnter] ++ [OsEnter])).
    + apply reachable_initial.
    + apply (exec_app true [Initialize] _ _ ready_state _ [OsInitialize] _).
      * reflexivity.
      * apply (exec_app true _ [Enter] _ (mkState true 0 (Constructed 1)) _
                 [OsEnter] [OsEnter]).
        -- apply (exec_Enters_wrap true _ ready_state eq_refl eq_refl).
           apply Z2Nat.id. unfold UINT32_MODULUS. lia.
        -- reflexivity.
  - intros [Hheld _]. fields.
    assert (E : Constructed 2 = Constructed 1) by (apply Hheld; lia).
    discriminate E.
Qed.



(** * Further properties of the four functions *)

(** ** Exit *)

(** X1: when the module is initialized and the counter is positive, Exit
    returns in both build modes with the counter one lower, and it
    releases the primitive exactly when the counter was 1; otherwise it
    makes no call to the primitive and leaves the object as it is. *)
Theorem Exit_releases_iff_last (NDEBUG : bool) (s : state) :
  criticalSectionInitialized s = true ->
  0 < criticalSectionNesting s < UINT32_MODULUS ->
  exists s' tr,
    UtilCriticalSectionExit NDEBUG s = Done tt s' tr /\
    criticalSectionInitialized s' = true /\
    criticalSectionNesting s' = criticalSectionNesting s - 1 /\
    (In OsLeave tr <-> criticalSectionNesting s = 1) /\
    (criticalSectionNesting s = 1 ->
       tr = [OsLeave] /\
       criticalSection s' = Win32.leave (criticalSection s)) /\
    (criticalSectionNesting s <> 1 ->
       tr = [] /\ criticalSection s' = criticalSection s).
Proof.
  intros Hi Hn. unfold UINT32_MODULUS in Hn.
  rewrite Exit_eq, Hi.
  replace (0 <? criticalSectionNesting s) with true
    by (symmetry; apply Z.ltb_lt; lia).
  rewrite wrap32_small by (unfold uint32_range, UINT32_MODULUS; lia).
  destruct (criticalSectionNesting s - 1 =? 0) eqn:E.
  - apply Z.eqb_eq in E.
    eexists; eexists; split; [reflexivity|]. fields.
    repeat split; try reflexivity; try lia; intros; simpl; auto; lia.
  - apply Z.eqb_neq in E.
    eexists; eexists; split; [reflexivity|]. fields.
    repeat split; try reflexivity; try lia;
      try (intros []; fail); try (intros; lia).
Qed.

Lemma Exit_releases_iff_last_witness :
  exists s' tr,
    UtilCriticalSectionExit false (mkState true 1 (Constructed 1)) = Done tt s' tr /\
    criticalSectionInitialized s' = true /\
    criticalSectionNesting s' = 1 - 1 /\
    (In OsLeave tr <-> 1 = 1) /\
    (1 = 1 -> tr = [OsLeave] /\ criticalSection s' = Win32.leave (Constructed 1)) /\
    (1 <> 1 -> tr = [] /\ criticalSection s' = Constructed 1).
Proof.
  apply (Exit_releases_iff_last false (mkState true 1 (Constructed 1))).
  - reflexivity.
  - unfold UINT32_MODULUS. simpl. lia.
Defined.

(** ** Enter followed by Exit *)

(** X2: a matched pair restores the module.  When the module is
    initialized and the counter is below 2^32 - 1, Enter followed by Exit
    returns in both build modes to exactly the state it started from; the
    pair acquires and releases the primitive when the counter was 0 and
    makes no call to it otherwise. *)
Theorem Enter_Exit_restores (NDEBUG : bool) (s : state) :
  criticalSectionInitialized s = true ->
  0 <= criticalSectionNesting s < UINT32_MAX ->
  exec NDEBUG [Enter; Exit] s =
    Done tt s (if criticalSectionNesting s =? 0 then [OsEnter; OsLeave] else []).
Proof.
  destruct s as [i n cs]. fields. intros Hi Hn. subst i.
  unfold UINT32_MAX in Hn.
  cbn [exec call]. unfold bind, ret. rewrite Enter_eq. fields.
  assert (Hsmall : wrap32 (n + 1) = n + 1)
    by (apply wrap32_small; unfold uint32_range, UINT32_MODULUS; lia).
  assert (Hback : wrap32 (n + 1 - 1) = n)
    by (replace (n + 1 - 1) with n by lia;
        apply wrap32_small; unfold uint32_range, UINT32_MODULUS; lia).
  destruct (n =? 0) eqn:E; rewrite Exit_eq; fields; rewrite Hsmall;
    replace (0 <? n + 1) with true by (symmetry; apply Z.ltb_lt; lia);
    rewrite Hback, E.
  - destruct cs; reflexivity.
  - reflexivity.
Qed.

Lemma Enter_Exit_restores_witness :
  exec false [Enter; Exit] ready_state = Done tt ready_state [OsEnter; OsLeave].
Proof.
  apply (Enter_Exit_restores false ready_state).
  - reflexivity.
  - unfold UINT32_MAX. simpl. lia.
Defined.

(** ** Assertions *)

(** The two builds, call by call. *)
Lemma call_by_build (c : api) (s : state) :
  (misuse c s = true ->
   call false c s = AssertFail s [] /\ call true c s = Done tt s []) /\
  (misuse c s = false ->
   call false c s = call true c s /\
   exists s' tr, call true c s = Done tt s' tr).
Proof.
  destruct s as [i n cs]. unfold misuse. fields.
  destruct c; cbn [call];
    rewrite ?Init_eq, ?Terminate_eq, ?Enter_eq, ?Exit_eq; fields.
  - split; [intros H; discriminate H|]. intros _. split; [reflexivity|].
    destruct i; eexists; eexists; reflexivity.
  - split; [intros H; discriminate H|]. intros _. split; [reflexivity|].
    destruct i; eexists; eexists; reflexivity.
  - destruct i; cbn [negb]; split; intros H; try discriminate H.
    + split; [reflexivity|]. destruct (n =? 0); eexists; eexists; reflexivity.
    + split; reflexivity.
  - destruct i; cbn [negb orb].
    + destruct (0 <? n); cbn [negb]; split; intros H; try discriminate H.
      * split; [reflexivity|].
        destruct (wrap32 (n - 1) =? 0); eexists; eexists; reflexivity.
      * split; reflexivity.
    + split; intros H; try discriminate H. split; reflexivity.
Qed.

(** X3: what the assertions do.  On a call that breaks the precondition
    of its function (Enter or Exit while not initialized, Exit while the
    counter is 0) a debug build stops at the assertion and a release
    build returns, in both cases with the state unchanged and no call
    made to the primitive.  On every other call the two builds do the
    same and return. *)
Theorem assertions_guard_misuse (c : api) (s : state) :
  (misuse c s = true ->
   call false c s = AssertFail s [] /\ call true c s = Done tt s []) /\
  (misuse c s = false ->
   call false c s = call true c s /\
   exists s' tr, call true c s = Done tt s' tr).
Proof.
  destruct (call_by_build c s) as [Hbad Hgood]. split.
  - intros H. exact (Hbad H).
  - intros H. exact (Hgood H).
Qed.

Lemma assertions_guard_misuse_witness :
  (call false Exit ready_state = AssertFail ready_state [] /\
   call true Exit ready_state = Done tt ready_state []) /\
  (call false Enter ready_state = call true Enter ready_state /\
   exists s' tr, call true Enter ready_state = Done tt s' tr).
Proof.
  split.
  - apply (assertions_guard_misuse Exit ready_state). reflexivity.
  - apply (assertions_guard_misuse Enter ready_state). reflexivity.
Defined.

(** ** Regions nested in any order *)

Lemma count_os_app (c : os_call) (tr1 tr2 : list os_call) :
  count_os c (tr1 ++ tr2) = (count_os c tr1 + count_os c tr2)%nat.
Proof.
  unfold count_os. rewrite filter_app, length_app. reflexivity.
Qed.

Lemma well_nested_exec (NDEBUG : bool) (l : list api) :
  forall d,
    0 <= d < UINT32_MODULUS ->
    well_nested d l = true ->
    0 <= depth_after d l < UINT32_MODULUS /\
    exists tr,
      exec NDEBUG l (region_state d) =
        Done tt (region_state (depth_after d l)) tr /\
      (count_os OsEnter tr + hold_of d =
       count_os OsLeave tr + hold_of (depth_after d l))%nat /\
      count_os OsInitialize tr = 0%nat /\
      count_os OsDelete tr = 0%nat.
Proof.
  induction l as [|c l IH]; intros d Hd Hw.
  - split; [exact Hd|]. exists []. repeat split.
  - unfold UINT32_MODULUS in Hd.
    destruct c; cbn [well_nested] in Hw; try discriminate Hw;
      apply andb_true_iff in Hw; destruct Hw as [Hc Hw];
      cbn [depth_after exec call]; unfold bind.
    + (* Enter *)
      apply Z.ltb_lt in Hc. unfold UINT32_MODULUS in Hc.
      assert (Hd' : 0 <= d + 1 < UINT32_MODULUS)
        by (unfold UINT32_MODULUS; lia).
      destruct (IH (d + 1) Hd' Hw) as (Hr & tr & He & Hbal & Hi0 & Hd0).
      split; [exact Hr|].
      rewrite Enter_eq. unfold region_state. fields.
      rewrite (wrap32_small (d + 1) Hd').
      assert (Hh : hold_of (d + 1) = 1%nat).
      { unfold hold_of.
        replace (d + 1 =? 0) with false by (symmetry; apply Z.eqb_neq; lia).
        reflexivity. }
      unfold region_state in He. rewrite Hh in He, Hbal.
      assert (Hhd : hold_of d = if d =? 0 then 0%nat else 1%nat)
        by reflexivity.
      rewrite Hhd.
      destruct (d =? 0) eqn:E; cbn [Win32.enter]; rewrite He;
        eexists; (split; [reflexivity|]);
        rewrite !count_os_app; cbn [count_os filter os_call_eqb length];
        fold (count_os OsEnter tr) (count_os OsLeave tr)
             (count_os OsInitialize tr) (count_os OsDelete tr);
        repeat split; lia.
    + (* Exit *)
      apply Z.ltb_lt in Hc.
      assert (Hd' : 0 <= d - 1 < UINT32_MODULUS)
        by (unfold UINT32_MODULUS; lia).
      destruct (IH (d - 1) Hd' Hw) as (Hr & tr & He & Hbal & Hi0 & Hd0).
      split; [exact Hr|].
      rewrite Exit_eq. unfold region_state. fields.
      replace (0 <? d) with true by (symmetry; apply Z.ltb_lt; lia).
      rewrite (wrap32_small (d - 1) Hd').
      assert (Hh : hold_of d = 1%nat).
      { unfold hold_of.
        replace (d =? 0) with false by (symmetry; apply Z.eqb_neq; lia).
        reflexivity. }
      rewrite Hh. unfold region_state in He.
      assert (Hhd : hold_of (d - 1) = if d - 1 =? 0 then 0%nat else 1%nat)
        by reflexivity.
      rewrite Hhd in He, Hbal.
      destruct (d - 1 =? 0) eqn:E; cbn [Win32.leave Nat.pred]; rewrite He;
        eexists; (split; [reflexivity|]);
        rewrite !count_os_app; cbn [count_os filter os_call_eqb length];
        fold (count_os OsEnter tr) (count_os OsLeave tr)
             (count_os OsInitialize tr) (count_os OsDelete tr);
        repeat split; lia.
Qed.

(** X5: regions nested and interleaved in any order.  For every sequence
    of Enter and Exit calls that never exits a region that is not open and
    never nests 2^32 deep, starting at any depth d with the primitive held
    once (d > 0) or not held (d = 0): the sequence returns in both build
    modes, the counter ends at d plus the number of Enter calls minus the
    number of Exit calls, the primitive is again held once or not at all
    according to the counter, its acquisitions and releases balance with
    that, and it is neither constructed nor destroyed. *)
Theorem nested_regions_track_depth (NDEBUG : bool) (l : list api) (d : Z) :
  0 <= d < UINT32_MODULUS ->
  well_nested d l = true ->
  exists tr,
    exec NDEBUG l (region_state d) =
      Done tt (region_state (depth_after d l)) tr /\
    0 <= depth_after d l < UINT32_MODULUS /\
    (count_os OsEnter tr + hold_of d =
     count_os OsLeave tr + hold_of (depth_after d l))%nat /\
    count_os OsInitialize tr = 0%nat /\
    count_os OsDelete tr = 0%nat.
Proof.
  intros Hd Hw.
  destruct (well_nested_exec NDEBUG l d Hd Hw) as (Hr & tr & He & Hbal & Hi & Hx).
  exists tr. repeat split; try assumption; apply Hr.
Qed.

Lemma nested_regions_track_depth_witness :
  exists tr,
    exec false [Enter; Enter; Exit; Enter; Exit; Exit] (region_state 0) =
      Done tt (region_state (depth_after 0 [Enter; Enter; Exit; Enter; Exit; Exit])) tr /\
    0 <= depth_after 0 [Enter; Enter; Exit; Enter; Exit; Exit] < UINT32_MODULUS /\
    (count_os OsEnter tr + hold_of 0 =
     count_os OsLeave tr +
     hold_of (depth_after 0 [Enter; Enter; Exit; Enter; Exit; Exit]))%nat /\
    count_os OsInitialize tr = 0%nat /\
    count_os OsDelete tr = 0%nat.
Proof.
  apply (nested_regions_track_depth false [Enter; Enter; Exit; Enter; Exit; Exit] 0).
  - unfold UINT32_MODULUS. lia.
  - reflexivity.
Defined.


(** ** Restart *)

(** X6: Terminate followed by Initialize restarts the module from every
    state, whatever the counter and whether or not the primitive is held:
    the result is the state of a freshly initialized module (flag set,
    nesting 0, a new object that nobody holds), after destroying the old
    object if there was one and constructing the new one. *)
Theorem Terminate_Init_restarts (NDEBUG : bool) (s : state) :
  exec NDEBUG [Terminate; Initialize] s =
    Done tt (mkState true 0 (Constructed 0))
      (if criticalSectionInitialized s
       then [OsDelete; OsInitialize]
       else [OsInitialize]).
Proof.
  cbn [exec call]. unfold bind, ret. rewrite Terminate_eq.
  destruct (criticalSectionInitialized s) eqn:Hi.
  - rewrite Init_eq. reflexivity.
  - rewrite Init_eq, Hi. reflexivity.
Qed.

(** ** What each function touches *)

(** X7: each function makes at most one call to the primitive, and only
    the call of its own kind: Init may construct, Terminate may destroy,
    Enter may acquire, Exit may release.  Enter and Exit never change the
    initialized flag, and Init and Terminate never leave the counter at
    anything but the value it had or 0. *)
Theorem one_call_of_own_kind (NDEBUG : bool) (c : api) (s : state) :
  (out_trace (call NDEBUG c s) = [] \/
   out_trace (call NDEBUG c s) = [os_call_of c]) /\
  (c = Enter \/ c = Exit ->
   criticalSectionInitialized (out_state (call NDEBUG c s)) =
     criticalSectionInitialized s) /\
  (c = Initialize \/ c = Terminate ->
   criticalSectionNesting (out_state (call NDEBUG c s)) =
     criticalSectionNesting s \/
   criticalSectionNesting (out_state (call NDEBUG c s)) = 0).
Proof.
  destruct s as [i n cs].
  destruct c; cbn [call os_call_of];
    rewrite ?Init_eq, ?Terminate_eq, ?Enter_eq, ?Exit_eq; fields.
  - destruct i; cbn [out_trace out_state]; unfold ready_state; fields;
      repeat split; auto; intros [H|H]; discriminate H.
  - destruct i; cbn [out_trace out_state]; unfold initial_state; fields;
      repeat split; auto; intros [H|H]; discriminate H.
  - destruct i; [destruct (n =? 0) | destruct NDEBUG];
      cbn [out_trace out_state]; fields;
      repeat split; auto; intros [H|H]; discriminate H.
  - destruct i;
      [destruct (0 <? n); [destruct (wrap32 (n - 1) =? 0) | destruct NDEBUG]
      | destruct NDEBUG];
      cbn [out_trace out_state]; fields;
      repeat split; auto; intros [H|H]; discriminate H.
Qed.

Lemma one_call_of_own_kind_witness :
  (out_trace (call false Enter ready_state) = [] \/
   out_trace (call false Enter ready_state) = [os_call_of Enter]) /\
  criticalSectionInitialized (out_state (call false Enter ready_state)) =
    criticalSectionInitialized ready_state.
Proof.
  destruct (one_call_of_own_kind false Enter ready_state) as (Htr & Hflag & _).
  split; [exact Htr|]. apply Hflag. left. reflexivity.
Defined.

(** ** From program start *)

Lemma call_out_consistent (NDEBUG : bool) (c : api) (s : state) :
  lock_consistent s -> lock_consistent (out_state (call NDEBUG c s)).
Proof.
  intros Hs. destruct (call NDEBUG c s) as [[] s' tr|s' tr] eqn:E.
  - apply (step_lock_consistent NDEBUG s c s' Hs). exists tr. exact E.
  - cbn [out_state].
    destruct NDEBUG.
    + destruct (call_by_build c s) as [Hbad Hgood].
      destruct (misuse c s).
      * destruct (Hbad eq_refl) as [_ Hr]. rewrite Hr in E. discriminate E.
      * destruct (Hgood eq_refl) as [_ (s1 & tr1 & Hr)].
        rewrite Hr in E. discriminate E.
    + destruct (call_by_build c s) as [Hbad Hgood].
      destruct (misuse c s).
      * destruct (Hbad eq_refl) as [Hd _]. rewrite Hd in E.
        inversion E; subst. exact Hs.
      * destruct (Hgood eq_refl) as [Heq (s1 & tr1 & Hr)].
        rewrite Heq, Hr in E. discriminate E.
Qed.

Lemma exec_out_consistent (NDEBUG : bool) (l : list api) :
  forall s, lock_consistent s -> lock_consistent (out_state (exec NDEBUG l s)).
Proof.
  induction l as [|c l IH]; intros s Hs.
  - exact Hs.
  - cbn [exec]. unfold bind.
    pose proof (call_out_consistent NDEBUG c s Hs) as H1.
    destruct (call NDEBUG c s) as [[] s1 tr1|s1 tr1]; cbn [out_state] in H1.
    + specialize (IH s1 H1).
      destruct (exec NDEBUG l s1) as [[] s2 tr2|s2 tr2]; exact IH.
    + exact H1.
Qed.

(** X8: the flag tells whether the object exists.  After any sequence of
    calls from program start, in either build mode and also when a debug
    build has stopped on an assertion: the initialized flag is set if and
    only if the Win32 object is constructed, and the counter is within the
    range of a 32-bit unsigned integer. *)
Theorem flag_iff_constructed (NDEBUG : bool) (l : list api) :
  (criticalSectionInitialized (out_state (exec NDEBUG l initial_state)) = true <->
   exists r,
     criticalSection (out_state (exec NDEBUG l initial_state)) = Constructed r) /\
  0 <= criticalSectionNesting (out_state (exec NDEBUG l initial_state))
    < 4294967296.
Proof.
  pose proof (exec_out_consistent NDEBUG l initial_state lock_consistent_initial)
    as [Hr Hl].
  split; [|exact Hr].
  destruct (criticalSectionInitialized (out_state (exec NDEBUG l initial_state))).
  - destruct Hl as (r & Hcs & _). split; [intros _; exists r; exact Hcs|reflexivity].
  - destruct Hl as [_ Hcs]. split; [intros H; discriminate H|].
    intros [r Hc]. rewrite Hcs in Hc. discriminate Hc.
Qed.





(** Initialize; Enter; Terminate deletes the object while it is held. *)
Example delete_while_held_leaves_contract :
  out_trace (exec true [Initialize; Enter; Terminate] initial_state) =
    [OsInitialize; OsEnter; OsDelete] /\
  Win32.within_contract [OsInitialize; OsEnter; OsDelete] NotConstructed = false /\
  Terminate_while_held true [Initialize; Enter; Terminate] initial_state = true.
Proof. repeat split. Qed.
